(** * QDMboxSearch: mbox loading and containment search

    A shallow embedding of [src/mbox_search.py] (command-line tool,
    class [MBoxSearcher]) and [src/mbox_search_gui.py] (class
    [MBoxLoader] and [MainWindow.search]).

    Python [str] values are modelled as [string] (ASCII characters);
    [str.lower] is modelled on ASCII letters, where it maps A..Z to a..z
    and leaves every other character alone. *)

From Stdlib Require Import Ascii String List ZArith Bool Lia Sorted.
Import ListNotations.
Open Scope string_scope.
Set Warnings "-register-all".

(** ** Strings: [str.lower], [str.startswith] and the [in] operator *)

Definition ascii_lower (c : ascii) : ascii :=
  let n := nat_of_ascii c in
  if (65 <=? n)%nat && (n <=? 90)%nat then ascii_of_nat (n + 32) else c.

(** [s.lower()] *)
Fixpoint str_lower (s : string) : string :=
  match s with
  | EmptyString => EmptyString
  | String c r => String (ascii_lower c) (str_lower r)
  end.

(** [s.startswith(p)] *)
Fixpoint startswith (s p : string) : bool :=
  match p, s with
  | EmptyString, _ => true
  | String _ _, EmptyString => false
  | String c p', String d s' => Ascii.eqb c d && startswith s' p'
  end.

(** [q in s]: the query occurs at some position of [s]. *)
Fixpoint str_contains (q s : string) : bool :=
  startswith s q ||
  match s with
  | EmptyString => false
  | String _ s' => str_contains q s'
  end.

(** Contiguous-substring relation, used to state what [in] decides. *)
Definition substring_of (q s : string) : Prop :=
  exists pre suf, s = pre ++ q ++ suf.

(** ** Records (the [EmailMessage] dataclass) *)

Section Records.
Variable datetime : Type.

Record EmailMessage := mkEmail {
  message_id : string;
  subject : string;
  from_addr : string;
  date : option datetime;
  body : string
}.
End Records.

Arguments mkEmail {datetime}.
Arguments message_id {datetime}.
Arguments subject {datetime}.
Arguments from_addr {datetime}.
Arguments date {datetime}.
Arguments body {datetime}.

(** Ordered subsequence: [subseq xs ys] when [xs] is obtained from [ys]
    by deleting elements, without reordering. *)
Inductive subseq {A : Type} : list A -> list A -> Prop :=
| subseq_nil : subseq [] []
| subseq_skip x xs ys : subseq xs ys -> subseq xs (x :: ys)
| subseq_keep x xs ys : subseq xs ys -> subseq (x :: xs) (x :: ys).

(** ** Search ([MBoxSearcher.search] and [MainWindow.search]) *)

Section Search.
Context {datetime : Type}.

(** The loop body of [MBoxSearcher.search] for one message, with the
    query already lowercased. *)
Definition message_matches (query : string) (search_subject search_body : bool)
    (message : EmailMessage datetime) : bool :=
  let m1 := search_subject && str_contains query (str_lower (subject message)) in
  let m2 := search_body && str_contains query (str_lower (body message)) in
  m1 || m2.

Fixpoint search_loop (query : string) (search_subject search_body : bool)
    (messages : list (EmailMessage datetime)) : list (EmailMessage datetime) :=
  match messages with
  | [] => []
  | message :: rest =>
      if message_matches query search_subject search_body message
      then message :: search_loop query search_subject search_body rest
      else search_loop query search_subject search_body rest
  end.

(** [MBoxSearcher.search(query, search_subject, search_body)] *)
Definition search (messages : list (EmailMessage datetime)) (query : string)
    (search_subject search_body : bool) : list (EmailMessage datetime) :=
  search_loop (str_lower query) search_subject search_body messages.

(** [MainWindow.search]: the combo box text selects the fields. *)
Definition gui_search (messages : list (EmailMessage datetime)) (text search_type : string)
    : list (EmailMessage datetime) :=
  let query := str_lower text in
  (fix go (ms : list (EmailMessage datetime)) : list (EmailMessage datetime) :=
     match ms with
     | [] => []
     | message :: rest =>
         let m1 := (existsb (String.eqb search_type) ["Subject"; "Both"])
                   && str_contains query (str_lower (subject message)) in
         let m2 := (existsb (String.eqb search_type) ["Body"; "Both"])
                   && str_contains query (str_lower (body message)) in
         if m1 || m2 then message :: go rest else go rest
     end) messages.

End Search.

(** ** Parsed messages ([email.message.Message]) *)

(** A MIME part as [Message.walk] sees it.  [get_content_type()] is the
    first field.  For a leaf, [decoded] is the result of
    [part.get_payload(decode=True).decode()] ([None] when that call
    raises: bad transfer encoding, bytes that are not valid UTF-8) and
    [raw] is [part.get_payload()].  For a multipart container,
    [get_payload(decode=True)] is [None], so [.decode()] raises. *)
Inductive Part : Type :=
| Leaf (content_type : string) (decoded : option string) (raw : string)
| Multi (content_type : string) (parts : list Part).

Record Message := mkMessage {
  headers : list (string * string);
  root : Part
}.

Definition get_content_type (p : Part) : string :=
  match p with Leaf ct _ _ => ct | Multi ct _ => ct end.

(** [get_payload(decode=True).decode()]; [None] models the exception. *)
Definition decode_payload (p : Part) : option string :=
  match p with Leaf _ d _ => d | Multi _ _ => None end.

(** [get_payload()] of a non-multipart message. *)
Definition raw_payload (p : Part) : string :=
  match p with Leaf _ _ r => r | Multi _ _ => "" end.

Definition is_multipart (m : Message) : bool :=
  match root m with Multi _ _ => true | Leaf _ _ _ => false end.

(** [Message.walk]: the part itself, then the walks of its subparts. *)
Fixpoint walk (p : Part) : list Part :=
  p :: match p with
       | Leaf _ _ _ => []
       | Multi _ ps =>
           (fix walk_list (qs : list Part) : list Part :=
              match qs with
              | [] => []
              | q :: qs' => (walk q ++ walk_list qs')%list
              end) ps
       end.

(** [message.get(name, default)]: header names compare case-insensitively
    and the first occurrence wins. *)
Fixpoint msg_get (hs : list (string * string)) (name default : string) : string :=
  match hs with
  | [] => default
  | (k, v) :: hs' =>
      if String.eqb (str_lower k) (str_lower name) then v
      else msg_get hs' name default
  end.

(** ** Splitting an mbox file ([mailbox.mbox._generate_toc]) *)

Definition newline : ascii := Ascii.ascii_of_nat 10.
Definition linesep : string := String newline EmptyString.

(** Successive [readline()] results: each line keeps its terminating
    newline, the last one may lack it. *)
Fixpoint readlines (s : string) : list string :=
  match s with
  | EmptyString => []
  | String c rest =>
      if Ascii.eqb c newline then linesep :: readlines rest
      else match readlines rest with
           | [] => [String c EmptyString]
           | l :: ls => String c l :: ls
           end
  end.

(** One [readline()]: the first line, with its newline, and the rest. *)
Fixpoint readline (s : string) : string * string :=
  match s with
  | EmptyString => (EmptyString, EmptyString)
  | String c rest =>
      if Ascii.eqb c newline then (linesep, rest)
      else let '(line, rest') := readline rest in (String c line, rest')
  end.

(** [.replace(linesep, b'')] *)
Fixpoint remove_newlines (s : string) : string :=
  match s with
  | EmptyString => EmptyString
  | String c rest =>
      if Ascii.eqb c newline then remove_newlines rest else String c (remove_newlines rest)
  end.

(** [bytes.decode('ascii')] succeeds exactly when every byte is below 128. *)
Fixpoint is_ascii (s : string) : bool :=
  match s with
  | EmptyString => true
  | String c rest => (Nat.ltb (nat_of_ascii c) 128) && is_ascii rest
  end.

(** One table-of-contents entry ends either just before the [From ] line
    that starts the next one or at end of file; when the line before that
    point is a bare line separator it is left out.  [cur] holds the lines
    of the current message in reverse order. *)
Definition close_entry (cur : option (list string)) (last_was_empty : bool)
    : list (list string) :=
  match cur with
  | None => []
  | Some c => [rev (if last_was_empty then tl c else c)]
  end.

Fixpoint generate_toc (lines : list string) (cur : option (list string))
    (last_was_empty : bool) : list (list string) :=
  match lines with
  | [] => close_entry cur last_was_empty
  | line :: rest =>
      if startswith line "From " then
        (close_entry cur last_was_empty ++ generate_toc rest (Some [line]) false)%list
      else
        generate_toc rest (option_map (cons line) cur) (String.eqb line linesep)
  end.

(** The message texts of the file, in file order. *)
Definition mbox_entries (contents : string) : list string :=
  map (fun ls => fold_right String.append EmptyString ls)
      (generate_toc (readlines contents) None false).

(** Whether [from_line[5:].decode('ascii')] succeeds in
    [_mboxMMDF.get_message] for an entry, [from_line] being its first
    line with the line separator removed. *)
Definition from_line_ascii (entry : string) : bool :=
  let from_line := remove_newlines (fst (readline entry)) in
  is_ascii (substring 5 (String.length from_line - 5) from_line).


(** ** The pre-scan of [MBoxLoader.run] *)

Definition chunk_size : nat := 1024 * 1024.

(** Successive [f.read(n)] results; [fuel] bounds the number of reads. *)
Fixpoint read_chunks_fuel (fuel n : nat) (s : string) : list string :=
  match fuel with
  | O => []
  | S fuel' =>
      match s with
      | EmptyString => []
      | _ => substring 0 n s :: read_chunks_fuel fuel' n (substring n (String.length s - n) s)
      end
  end.

Definition read_chunks (n : nat) (s : string) : list string :=
  read_chunks_fuel (S (String.length s)) n s.

(** [chunk.count(sub)]: non-overlapping occurrences, scanning left to
    right; [fuel] bounds the number of steps. *)
Fixpoint count_sub_fuel (fuel : nat) (sub s : string) : nat :=
  match fuel with
  | O => O
  | S fuel' =>
      if startswith s sub then
        S (count_sub_fuel fuel' sub (substring (String.length sub)
                                      (String.length s - String.length sub) s))
      else match s with
           | EmptyString => O
           | String _ s' => count_sub_fuel fuel' sub s'
           end
  end.

Definition count_sub (sub s : string) : nat :=
  count_sub_fuel (S (String.length s)) sub s.

Definition separator : string := String newline "From ".

(** The successfully decoded texts of the parts of content type [ct],
    in walk order, and their concatenation. *)
Definition decoded_texts (ct : string) (parts : list Part) : list string :=
  flat_map (fun p => if String.eqb (get_content_type p) ct then
                       match decode_payload p with Some t => [t] | None => [] end
                     else []) parts.

Definition concat_strings (ts : list string) : string :=
  fold_right String.append EmptyString ts.

(** ** The loaders *)

Section Loader.
Open Scope Z_scope.

Variable datetime : Type.

(** [email.utils.parsedate_to_datetime]; [None] when it raises. *)
Variable parsedate_to_datetime : string -> option datetime.

(** The message factory of [mailbox.mbox] ([mboxMessage]): parses the
    text of one entry that follows its [From ] line. *)
Variable parse_message : string -> Message.

(** The filesystem: [fs path] is the contents of the file at [path], or
    [None] when no file exists there. *)
Definition FileSystem := string -> option string.

(** Date handling shared by both loaders:
    [date_header = message.get('Date', '')], parsed only when non-empty,
    [except Exception: date_obj = None]. *)
Definition parse_date (message : Message) : option datetime :=
  let date_header := msg_get (headers message) "Date" "" in
  if String.eqb date_header "" then None
  else parsedate_to_datetime date_header.

(** [_mboxMMDF.get_message] on one table-of-contents entry: [readline()]
    gives the [From ] line, the factory parses the rest, and
    [msg.set_from(from_line[5:].decode('ascii'))] raises
    [UnicodeDecodeError] ([None]) when the [From ] line holds a byte
    outside ASCII. *)
Definition get_message (entry : string) : option Message :=
  let '(from_line, text) := readline entry in
  let message := parse_message text in
  if from_line_ascii entry then Some message else None.

(** *** Command-line loader ([src/mbox_search.py]) *)

(** One iteration of the [for part in message.walk()] loop of
    [MBoxSearcher._get_message_body]: [body += ...] or, when decoding
    raises, [continue]. *)
Definition body_step (body : string) (part : Part) : string :=
  if String.eqb (get_content_type part) "text/plain" then
    match decode_payload part with
    | Some text => body ++ text
    | None => body
    end
  else body.

(** [MBoxSearcher._get_message_body] *)
Definition get_message_body (message : Message) : string :=
  if is_multipart message then fold_left body_step (walk (root message)) ""
  else
    match decode_payload (root message) with
    | Some text => text
    | None => raw_payload (root message)
    end.

(** The [EmailMessage] built in the loop of [MBoxSearcher.load_mbox]. *)
Definition cli_record (message : Message) : EmailMessage datetime :=
  mkEmail (msg_get (headers message) "Message-ID" "")
          (msg_get (headers message) "Subject" "")
          (msg_get (headers message) "From" "")
          (parse_date message)
          (get_message_body message).

(** The two errors [load_mbox] prints before [sys.exit(1)]: the missing
    file, and "Error loading mbox file" from its [except Exception]. *)
Inductive CliError :=
| DoesNotExist (path : string)
| ErrorLoadingMbox.

(** [for message in mbox]: the messages in file order, or [None] as soon
    as one [get_message] raises. *)
Fixpoint mbox_messages (entries : list string) : option (list Message) :=
  match entries with
  | [] => Some []
  | entry :: rest =>
      match get_message entry with
      | None => None
      | Some message => option_map (cons message) (mbox_messages rest)
      end
  end.

(** Result of [load_mbox]: [sys.exit(code)] after printing an error, or
    the new value of [self.messages]. *)
Inductive CliOutcome :=
| CliExit (printed : CliError) (code : Z)
| CliLoaded (messages : list (EmailMessage datetime)).

(** [MBoxSearcher.load_mbox]; [messages] is [self.messages] on entry. *)
Definition load_mbox (fs : FileSystem) (mbox_path : string)
    (messages : list (EmailMessage datetime)) : CliOutcome :=
  match fs mbox_path with
  | None => CliExit (DoesNotExist mbox_path) 1
  | Some contents =>
      match mbox_messages (mbox_entries contents) with
      | None => CliExit ErrorLoadingMbox 1
      | Some mbox => CliLoaded (messages ++ map cli_record mbox)
      end
  end.

(** *** GUI loader ([MBoxLoader.run] in [src/mbox_search_gui.py]) *)

(** One iteration of the [for part in message.walk()] loop of
    [MBoxLoader.run], on the pair [(body, html_body)]. *)
Definition gui_step (acc : string * string) (part : Part) : string * string :=
  let '(body, html_body) := acc in
  let content_type := get_content_type part in
  if String.eqb content_type "text/plain" then
    match decode_payload part with
    | Some text => (body ++ text, html_body)
    | None => (body, html_body)
    end
  else if String.eqb content_type "text/html" then
    match decode_payload part with
    | Some text => (body, html_body ++ text)
    | None => (body, html_body)
    end
  else (body, html_body).

(** The [(body, html_body)] pair computed for one message. *)
Definition gui_bodies (message : Message) : string * string :=
  if is_multipart message then fold_left gui_step (walk (root message)) ("", "")
  else
    match decode_payload (root message) with
    | Some text =>
        if String.eqb (get_content_type (root message)) "text/html"
        then ("", text) else (text, "")
    | None => (raw_payload (root message), "")
    end.

(** [body=html_body if html_body else body] *)
Definition gui_body (message : Message) : string :=
  let '(body, html_body) := gui_bodies message in
  if String.eqb html_body "" then body else html_body.

Definition gui_record (message : Message) : EmailMessage datetime :=
  mkEmail (msg_get (headers message) "Message-ID" "")
          (msg_get (headers message) "Subject" "")
          (msg_get (headers message) "From" "")
          (parse_date message)
          (gui_body message).

Inductive StatusMsg :=
| Scanning
| FoundMessages (message_count : Z)
| LoadingMessage (current_message message_count : Z).

(** The exceptions [run] catches and reports through [error.emit]. *)
Inductive LoaderError :=
| FileNotFoundError (path : string)
| UnicodeDecodeError
| ZeroDivisionError.

(** The signals [run] emits, in emission order. *)
Inductive Signal :=
| Progress (value : Z)
| Status (s : StatusMsg)
| Finished (messages : list (EmailMessage datetime))
| Error (e : LoaderError).

(** First pass: the progress values it emits and the final
    [message_count].  [int((bytes_processed / file_size) * 50)] is
    computed on floats in the source; it is modelled by the floor of the
    exact quotient, which it equals whenever the float operations are
    exact. *)
Fixpoint prescan (file_size bytes_processed message_count : Z)
    (chunks : list string) : list Z * Z :=
  match chunks with
  | [] => ([], message_count)
  | chunk :: rest =>
      let bytes_processed' := bytes_processed + Z.of_nat (String.length chunk) in
      let message_count' := message_count + Z.of_nat (count_sub separator chunk) in
      let progress := bytes_processed' * 50 / file_size in
      let '(emitted, n) := prescan file_size bytes_processed' message_count' rest in
      (progress :: emitted, n)
  end.

(** Second pass, over the results of [get_message] for the entries in
    order: the iteration raises [UnicodeDecodeError] on an entry whose
    [get_message] fails; [50 + int((current_message / message_count) * 50)]
    raises [ZeroDivisionError] when [message_count] is 0.  The message
    list built so far is then dropped. *)
Fixpoint load_loop (message_count : Z) (mbox : list (option Message)) (current_message : Z)
    (messages : list (EmailMessage datetime)) : list Signal :=
  match mbox with
  | [] => [Finished (rev messages)]
  | None :: _ => [Error UnicodeDecodeError]
  | Some message :: rest =>
      let email := gui_record message in
      let current_message' := current_message + 1 in
      if message_count =? 0 then [Error ZeroDivisionError]
      else
        Progress (50 + current_message' * 50 / message_count)
        :: Status (LoadingMessage current_message' message_count)
        :: load_loop message_count rest current_message' (email :: messages)
  end.

(** [MBoxLoader.run]: [os.path.getsize] raises [FileNotFoundError] on a
    missing path, which the outer [except] turns into [error.emit]. *)
Definition run (fs : FileSystem) (mbox_path : string) : list Signal :=
  Status Scanning ::
  match fs mbox_path with
  | None => [Error (FileNotFoundError mbox_path)]
  | Some contents =>
      let file_size := Z.of_nat (String.length contents) in
      let '(emitted, message_count) :=
        prescan file_size 0 0 (read_chunks chunk_size contents) in
      (map Progress emitted ++ Status (FoundMessages message_count)
         :: load_loop message_count (map get_message (mbox_entries contents)) 0 [])%list
  end.

Definition progress_values (signals : list Signal) : list Z :=
  flat_map (fun s => match s with Progress v => [v] | _ => [] end) signals.

(** The pre-scan's message count for a file. *)
Definition prescan_count (contents : string) : Z :=
  snd (prescan (Z.of_nat (String.length contents)) 0 0 (read_chunks chunk_size contents)).

End Loader.

Arguments CliExit {datetime}.
Arguments CliLoaded {datetime}.
Arguments Progress {datetime}.
Arguments Status {datetime}.
Arguments Finished {datetime}.
Arguments Error {datetime}.

(** ** The front ends *)

Section Frontends.
Variable D : Type.
Variable pd : string -> option D.
Variable pm : string -> Message.

(** [message.date.strftime("%Y-%m-%d %H:%M")]. *)
Variable strftime : D -> string.

(** The Date column of both result tables: the formatted date, or
    ["Unknown"] when the record has no date. *)
Definition date_str (message : EmailMessage D) : string :=
  match date message with
  | Some d => strftime d
  | None => "Unknown"
  end.

(** *** Main window ([MainWindow]) *)

(** One row of [results_table]: Date, From and Subject columns, with the
    record stored as the first item's [UserRole] data. *)
Record Row := mkRow {
  row_date : string;
  row_from : string;
  row_subject : string;
  row_message : EmailMessage D
}.

Definition row_of (message : EmailMessage D) : Row :=
  mkRow (date_str message) (from_addr message) (subject message) message.

(** The texts [statusBar().showMessage] is given. *)
Inductive WindowStatus :=
| Ready
| Initializing
| LoaderStatus (s : StatusMsg)
| LoadedMessages (n : nat)
| FoundResults (n : nat).

(** The window state the handlers read and write.  [w_error_dialog]
    records the [QMessageBox.critical] shown by [loading_error]. *)
Record Window := mkWindow {
  w_messages : list (EmailMessage D);
  w_rows : list Row;
  w_status : WindowStatus;
  w_progress_visible : bool;
  w_progress_value : Z;
  w_search_text : string;
  w_search_type : string;
  w_error_dialog : option LoaderError
}.

Definition set_status (w : Window) (s : WindowStatus) : Window :=
  mkWindow (w_messages w) (w_rows w) s (w_progress_visible w) (w_progress_value w)
           (w_search_text w) (w_search_type w) (w_error_dialog w).

(** [MainWindow.display_results] *)
Definition display_results (w : Window) (results : list (EmailMessage D)) : Window :=
  set_status
    (mkWindow (w_messages w) (map row_of results) (w_status w) (w_progress_visible w)
              (w_progress_value w) (w_search_text w) (w_search_type w) (w_error_dialog w))
    (FoundResults (length results)).

(** [MainWindow.search] *)
Definition window_search (w : Window) : Window :=
  display_results w (gui_search (w_messages w) (w_search_text w) (w_search_type w)).

(** [MainWindow.load_mbox], up to [self.loader.start()]. *)
Definition start_load (w : Window) : Window :=
  mkWindow (w_messages w) (w_rows w) Initializing true 0%Z
           (w_search_text w) (w_search_type w) (w_error_dialog w).

(** [MainWindow.update_progress]: [QProgressBar.setValue] leaves the bar
    unchanged when the value lies outside its range, 0..100 by default. *)
Definition update_progress (w : Window) (value : Z) : Window :=
  if (0 <=? value)%Z && (value <=? 100)%Z then
    mkWindow (w_messages w) (w_rows w) (w_status w) (w_progress_visible w) value
             (w_search_text w) (w_search_type w) (w_error_dialog w)
  else w.

(** [MainWindow.loading_finished] *)
Definition loading_finished (w : Window) (messages : list (EmailMessage D)) : Window :=
  window_search
    (mkWindow messages (w_rows w) (LoadedMessages (length messages)) false
              (w_progress_value w) (w_search_text w) (w_search_type w) (w_error_dialog w)).

(** [MainWindow.loading_error] *)
Definition loading_error (w : Window) (e : LoaderError) : Window :=
  mkWindow (w_messages w) (w_rows w) (w_status w) false (w_progress_value w)
           (w_search_text w) (w_search_type w) (Some e).

(** The slot connected to each loader signal. *)
Definition handle_signal (w : Window) (s : Signal D) : Window :=
  match s with
  | Progress v => update_progress w v
  | Status m => set_status w (LoaderStatus m)
  | Finished messages => loading_finished w messages
  | Error e => loading_error w e
  end.

(** Opening a file: [load_mbox], then the loader's signals delivered in
    emission order. *)
Definition open_mbox (fs : FileSystem) (path : string) (w : Window) : Window :=
  fold_left handle_signal (run D pd pm fs path) (start_load w).

(** *** The HTML test of [show_selected_message] *)

Fixpoint has_char (c : ascii) (s : string) : bool :=
  match s with
  | EmptyString => false
  | String d s' => Ascii.eqb c d || has_char c s'
  end.

(** The pattern [<[^>]+>] matched at the start of [s]: a ['<'], then a
    non-empty run of characters other than ['>'], then ['>'].  The greedy
    run stops at the first ['>'], so a match exists exactly when the
    character after ['<'] is not ['>'] and a ['>'] follows it. *)
Definition tag_at (s : string) : bool :=
  match s with
  | String c (String d rest) =>
      Ascii.eqb c "<" && negb (Ascii.eqb d ">") && has_char ">" rest
  | _ => false
  end.

(** [bool(re.search(r'<[^>]+>', s))] *)
Fixpoint is_html (s : string) : bool :=
  tag_at s || match s with
              | EmptyString => false
              | String _ s' => is_html s'
              end.

End Frontends.

(** ** Observations on traces *)

(** [finished] and [error] end a load; [progress] and [status] do not. *)
Definition is_terminal {D : Type} (s : Signal D) : bool :=
  match s with
  | Finished _ | Error _ => true
  | Progress _ | Status _ => false
  end.

(** The messages the factory builds from a file's entries, in file order. *)
Definition parsed_entries (pm : string -> Message) (contents : string) : list Message :=
  map (fun entry => pm (snd (readline entry))) (mbox_entries contents).

(** Whether [get_message] succeeds on every entry of a file. *)
Definition all_from_lines_ascii (contents : string) : bool :=
  forallb from_line_ascii (mbox_entries contents).

(** Total number of bytes in a list of chunks. *)
Definition chunks_total (chunks : list string) : Z :=
  fold_right (fun c acc => Z.of_nat (String.length c) + acc)%Z 0%Z chunks.

(** ** Concrete inputs *)

(** A two-message mbox file: the first [From ] line is at offset 0, the
    second follows a blank separator line. *)
Definition two_message_mbox : string :=
  "From alice@example.com Mon Jan  1 00:00:00 2024" ++ linesep ++ linesep ++
  "From bob@example.com Tue Jan  2 00:00:00 2024" ++ linesep.

Definition inbox_path : string := "inbox.mbox".

(** A filesystem holding one file at [inbox_path]. *)
Definition one_file (contents : string) : FileSystem :=
  fun path => if String.eqb path inbox_path then Some contents else None.

Definition no_files : FileSystem := fun _ => None.

(** A stand-in for the message factory: every entry gets a malformed
    [Date] header and a single text/plain payload. *)
Definition example_parser (text : string) : Message :=
  mkMessage [("Date", "not a date"); ("Subject", "Quarterly Report")]
            (Leaf "text/plain" (Some text) text).

(** [parsedate_to_datetime] raising on every input. *)
Definition never_parses (_ : string) : option nat := None.

(** multipart/alternative with a plain-text and an HTML rendering. *)
Definition alternative_message : Message :=
  mkMessage [("Subject", "Hi")]
    (Multi "multipart/alternative"
       [Leaf "text/plain" (Some "Hello") "Hello";
        Leaf "text/html" (Some "<p>Hello</p>") "<p>Hello</p>"]).

(** multipart/mixed with a plain-text part, a PDF attachment and a
    text/plain part whose decoding fails. *)
Definition attachment_message : Message :=
  mkMessage [("Subject", "Report")]
    (Multi "multipart/mixed"
       [Leaf "text/plain" (Some "Hello") "Hello";
        Leaf "application/pdf" None "JVBERi0xLjQ=";
        Leaf "text/plain" None "=FF"]).

(** A record whose subject is "Quarterly Report". *)
Definition quarterly : EmailMessage nat :=
  mkEmail "<1@x>" "Quarterly Report" "alice" None "numbers".

(** A file with a line of text before its only [From ] line: one entry,
    and one occurrence of the separator. *)
Definition preamble_mbox : string :=
  "x" ++ linesep ++ "From a@example.com Mon Jan  1 00:00:00 2024" ++ linesep ++ "hi" ++ linesep.


(** A stand-in for [strftime]. *)
Definition fixed_strftime (_ : nat) : string := "2024-01-01 00:00".

(** A freshly constructed main window: no messages, no rows, progress
    bar hidden, search box empty and the combo box on "Subject". *)
Definition initial_window : Window nat :=
  mkWindow nat [] [] Ready false 0%Z "" "Subject" None.

(** * Proofs *)

(** ** The string primitives *)

Lemma startswith_spec (s p : string) :
  startswith s p = true <-> exists suf, s = p ++ suf.
Proof.
  revert s; induction p as [|c p IH]; intros s; simpl.
  - split; [intros _; exists s; reflexivity | intros _; destruct s; reflexivity].
  - destruct s as [|d s]; simpl.
    + split; [discriminate | intros [suf H]; discriminate].
    + rewrite andb_true_iff, IH, Ascii.eqb_eq. split.
      * intros [-> [suf ->]]. exists suf. reflexivity.
      * intros [suf H]. injection H as -> ->. split; [reflexivity | exists suf; reflexivity].
Qed.

Lemma str_contains_unfold (q s : string) :
  str_contains q s =
  startswith s q || match s with
                    | EmptyString => false
                    | String _ s' => str_contains q s'
                    end.
Proof. destruct s; reflexivity. Qed.

Lemma str_contains_spec (q s : string) :
  str_contains q s = true <-> substring_of q s.
Proof.
  unfold substring_of. induction s as [|c s IH]; rewrite str_contains_unfold.
  - rewrite orb_false_r, startswith_spec. split.
    + intros [suf H]. exists EmptyString, suf. exact H.
    + intros [pre [suf H]]. destruct pre; [exists suf; exact H | discriminate].
  - rewrite orb_true_iff, startswith_spec, IH. split.
    + intros [[suf H] | [pre [suf H]]].
      * exists EmptyString, suf. exact H.
      * exists (String c pre), suf. simpl. rewrite H. reflexivity.
    + intros [pre [suf H]]. destruct pre as [|d pre]; simpl in H.
      * left. exists suf. exact H.
      * injection H as -> H. right. exists pre, suf. exact H.
Qed.

Lemma str_contains_empty (s : string) : str_contains "" s = true.
Proof. destruct s; reflexivity. Qed.

(** ** Filtering *)

Lemma filter_subseq {A} (f : A -> bool) (l : list A) : subseq (filter f l) l.
Proof.
  induction l as [|x l IH]; simpl; [constructor|].
  destruct (f x); [apply subseq_keep | apply subseq_skip]; exact IH.
Qed.

Lemma filter_subseq_mono {A} (f g : A -> bool) (l : list A) :
  (forall x, f x = true -> g x = true) -> subseq (filter f l) (filter g l).
Proof.
  intros Hfg. induction l as [|x l IH]; simpl; [constructor|].
  destruct (f x) eqn:Hf.
  - rewrite (Hfg x Hf). apply subseq_keep. exact IH.
  - destruct (g x); [apply subseq_skip|]; exact IH.
Qed.

Lemma search_loop_filter {D} (q : string) (ss sb : bool) (ms : list (EmailMessage D)) :
  search_loop q ss sb ms = filter (message_matches q ss sb) ms.
Proof.
  induction ms as [|m ms IH]; simpl; [reflexivity|].
  rewrite IH. reflexivity.
Qed.

Lemma gui_search_search {D} (ms : list (EmailMessage D)) (text search_type : string) :
  gui_search ms text search_type =
  search ms text (existsb (String.eqb search_type) ["Subject"; "Both"])
                 (existsb (String.eqb search_type) ["Body"; "Both"]).
Proof.
  unfold gui_search, search.
  induction ms as [|m ms IH]; [reflexivity|].
  simpl in *. unfold message_matches. rewrite IH. reflexivity.
Qed.

Lemma message_matches_spec {D} (q : string) (ss sb : bool) (r : EmailMessage D) :
  message_matches q ss sb r = true <->
  (ss = true /\ substring_of q (str_lower (subject r))) \/
  (sb = true /\ substring_of q (str_lower (body r))).
Proof.
  unfold message_matches.
  rewrite orb_true_iff, !andb_true_iff, !str_contains_spec. tauto.
Qed.

(** ** Search claims *)

(** C1: a record is returned by [search] exactly when it is in the input
    and some enabled field (subject when [search_subject], body when
    [search_body]) contains the lowercased query as a substring of the
    lowercased field text; [MainWindow.search] is the same search with
    the flags read from the combo box text. *)
Theorem search_returns_exactly_matching {D} (ms : list (EmailMessage D))
    (query : string) (search_subject search_body : bool) (r : EmailMessage D) :
  (In r (search ms query search_subject search_body) <->
   In r ms /\
   ((search_subject = true /\ substring_of (str_lower query) (str_lower (subject r))) \/
    (search_body = true /\ substring_of (str_lower query) (str_lower (body r)))))
  /\
  (forall search_type,
     gui_search ms query search_type =
     search ms query (existsb (String.eqb search_type) ["Subject"; "Both"])
                     (existsb (String.eqb search_type) ["Body"; "Both"])).
Proof.
  split.
  - unfold search. rewrite search_loop_filter, filter_In, message_matches_spec.
    reflexivity.
  - intros search_type. apply gui_search_search.
Qed.

(** C4: the search result is the input filtered by a per-record test,
    hence an ordered subsequence of the input: never reordered. *)
Theorem search_preserves_order {D} (ms : list (EmailMessage D))
    (query : string) (search_subject search_body : bool) :
  search ms query search_subject search_body =
    filter (message_matches (str_lower query) search_subject search_body) ms
  /\ subseq (search ms query search_subject search_body) ms.
Proof.
  unfold search. rewrite search_loop_filter.
  split; [reflexivity | apply filter_subseq].
Qed.

(** C8: with the empty query and at least one field enabled, [search]
    returns every record. *)
Theorem search_empty_query_all {D} (ms : list (EmailMessage D))
    (search_subject search_body : bool)
    (Hflag : search_subject || search_body = true) :
  search ms "" search_subject search_body = ms.
Proof.
  unfold search. change (str_lower "") with "". rewrite search_loop_filter.
  induction ms as [|m ms IH]; simpl; [reflexivity|].
  rewrite IH. unfold message_matches.
  rewrite !str_contains_empty, !andb_true_r, Hflag. reflexivity.
Qed.

(** C10: the single-flag results are ordered subsequences of the
    both-flags result. *)
Theorem search_monotone_in_flags {D} (ms : list (EmailMessage D)) (query : string) :
  subseq (search ms query true false) (search ms query true true) /\
  subseq (search ms query false true) (search ms query true true).
Proof.
  unfold search. rewrite !search_loop_filter.
  split; apply filter_subseq_mono; intros r; unfold message_matches; simpl;
    destruct (str_contains _ (str_lower (subject r))),
             (str_contains _ (str_lower (body r))); simpl; auto.
Qed.

(** ** The mbox table of contents *)







(** ** The GUI loader's signal trace *)

Lemma progress_values_app {D} (s1 s2 : list (Signal D)) :
  progress_values D (s1 ++ s2) = (progress_values D s1 ++ progress_values D s2)%list.
Proof. unfold progress_values. apply flat_map_app. Qed.

Lemma progress_values_map {D} (vs : list Z) :
  progress_values D (map Progress vs) = vs.
Proof. induction vs as [|v vs IH]; simpl; [reflexivity | rewrite IH; reflexivity]. Qed.

Lemma progress_values_status {D} (m : StatusMsg) (l : list (Signal D)) :
  progress_values D (Status m :: l) = progress_values D l.
Proof. reflexivity. Qed.

Section LoaderProofs.
Variable D : Type.
Variable pd : string -> option D.
Variable pm : string -> Message.

Lemma get_message_spec (entry : string) :
  get_message pm entry =
  if from_line_ascii entry then Some (pm (snd (readline entry))) else None.
Proof. unfold get_message. destruct (readline entry) as [l t]. reflexivity. Qed.

Lemma map_get_message_some (es : list string) (ms : list Message) :
  map (get_message pm) es = map Some ms ->
  forallb from_line_ascii es = true /\ ms = map (fun e => pm (snd (readline e))) es.
Proof.
  revert ms. induction es as [|e es IH]; intros [|m ms] H; cbn [map] in H; try discriminate.
  - split; reflexivity.
  - injection H as H1 H2. rewrite get_message_spec in H1.
    destruct (from_line_ascii e) eqn:He; [|discriminate]. injection H1 as <-.
    destruct (IH ms H2) as [Ha ->]. cbn [forallb map]. rewrite He, Ha. split; reflexivity.
Qed.

Lemma map_get_message_all (es : list string) :
  forallb from_line_ascii es = true ->
  map (get_message pm) es = map Some (map (fun e => pm (snd (readline e))) es).
Proof.
  induction es as [|e es IH]; cbn [forallb map]; intros H; [reflexivity|].
  apply andb_true_iff in H. destruct H as [He Hes].
  rewrite get_message_spec, He, (IH Hes). reflexivity.
Qed.

Lemma mbox_messages_spec (es : list string) :
  mbox_messages pm es =
  if forallb from_line_ascii es then Some (map (fun e => pm (snd (readline e))) es) else None.
Proof.
  induction es as [|e es IH]; cbn [mbox_messages forallb map]; [reflexivity|].
  rewrite get_message_spec. destruct (from_line_ascii e); [|reflexivity].
  rewrite IH. destruct (forallb from_line_ascii es); reflexivity.
Qed.

Lemma load_mbox_some (fs : FileSystem) (path contents : string)
    (messages : list (EmailMessage D)) :
  fs path = Some contents ->
  load_mbox D pd pm fs path messages =
  if all_from_lines_ascii contents
  then CliLoaded (messages ++ map (cli_record D pd) (parsed_entries pm contents))%list
  else CliExit ErrorLoadingMbox 1%Z.
Proof.
  intros H. unfold load_mbox. rewrite H, mbox_messages_spec.
  unfold all_from_lines_ascii, parsed_entries. destruct (forallb _ _); reflexivity.
Qed.

Lemma load_loop_finished (n : Z) (oms : list (option Message)) (k : Z)
    (acc recs : list (EmailMessage D)) :
  In (Finished recs) (load_loop D pd n oms k acc) ->
  exists ms, oms = map Some ms /\ recs = (rev acc ++ map (gui_record D pd) ms)%list.
Proof.
  revert k acc. induction oms as [|[m|] oms IH]; intros k acc; simpl.
  - intros [H | []]. injection H as <-. exists []. rewrite app_nil_r. split; reflexivity.
  - destruct (n =? 0)%Z.
    + intros [H | []]. discriminate.
    + intros [H | [H | H]]; try discriminate.
      destruct (IH _ _ H) as [ms [-> ->]]. exists (m :: ms). split; [reflexivity|].
      simpl. rewrite <- app_assoc. reflexivity.
  - intros [H | []]. discriminate.
Qed.

Lemma load_loop_reaches_finished (n : Z) (ms : list Message) (k : Z)
    (acc : list (EmailMessage D)) :
  n <> 0%Z ->
  In (Finished (rev acc ++ map (gui_record D pd) ms)%list)
     (load_loop D pd n (map Some ms) k acc).
Proof.
  intros Hn. revert k acc. induction ms as [|m ms IH]; intros k acc; simpl.
  - left. rewrite app_nil_r. reflexivity.
  - destruct (Z.eqb_spec n 0) as [E | _]; [contradiction|].
    right; right. specialize (IH (k + 1)%Z (gui_record D pd m :: acc)).
    simpl in IH. rewrite <- app_assoc in IH. exact IH.
Qed.

Lemma progress_not_finished (vs : list Z) (recs : list (EmailMessage D)) :
  ~ In (Finished recs) (map Progress vs).
Proof.
  rewrite in_map_iff. intros [v [H _]]. discriminate.
Qed.

Lemma prescan_count_run (contents : string) :
  prescan_count contents =
  snd (prescan (Z.of_nat (String.length contents)) 0 0 (read_chunks chunk_size contents)).
Proof. reflexivity. Qed.

(** The records a finished GUI load reports are the parsed entries of the
    file, in file order, and every [get_message] succeeded. *)
Lemma run_finished (fs : FileSystem) (path : string) (recs : list (EmailMessage D)) :
  In (Finished recs) (run D pd pm fs path) ->
  exists contents, fs path = Some contents /\ all_from_lines_ascii contents = true /\
    recs = map (gui_record D pd) (parsed_entries pm contents).
Proof.
  unfold run. intros [H | H]; [discriminate|].
  destruct (fs path) as [contents|]; [|destruct H as [H | []]; discriminate].
  exists contents.
  destruct (prescan _ 0 0 _) as [emitted n].
  apply in_app_or in H. destruct H as [H | [H | H]].
  - exfalso. exact (progress_not_finished _ _ H).
  - discriminate.
  - destruct (load_loop_finished _ _ _ _ _ H) as [ms [E ->]].
    destruct (map_get_message_some _ _ E) as [Ha ->].
    split; [reflexivity|]. split; [exact Ha | reflexivity].
Qed.

Lemma run_reaches_finished (fs : FileSystem) (path contents : string) :
  fs path = Some contents -> all_from_lines_ascii contents = true ->
  prescan_count contents <> 0%Z ->
  In (Finished (map (gui_record D pd) (parsed_entries pm contents)))
     (run D pd pm fs path).
Proof.
  intros Hfs Ha Hn. unfold run. rewrite Hfs. right.
  rewrite prescan_count_run in Hn.
  rewrite (map_get_message_all _ Ha).
  destruct (prescan _ 0 0 _) as [emitted n]. simpl in Hn.
  apply in_or_app. right. right.
  exact (load_loop_reaches_finished n _ 0 [] Hn).
Qed.

(** The trace of a load split at the pre-scan: its progress values, then
    the [Found] status and the message loop. *)
Lemma run_some (fs : FileSystem) (path contents : string) :
  fs path = Some contents ->
  run D pd pm fs path =
  (Status Scanning :: map Progress (fst (prescan (Z.of_nat (String.length contents)) 0 0
                                          (read_chunks chunk_size contents)))
   ++ Status (FoundMessages (prescan_count contents))
   :: load_loop D pd (prescan_count contents) (map (get_message pm) (mbox_entries contents)) 0 [])%list.
Proof.
  intros Hfs. unfold run, prescan_count. rewrite Hfs.
  destruct (prescan _ 0 0 _) as [emitted n]. reflexivity.
Qed.


End LoaderProofs.

(** ** Message bodies *)

Lemma str_append_assoc (a b c : string) : a ++ (b ++ c) = (a ++ b) ++ c.
Proof. induction a as [|x a IH]; simpl; [reflexivity | rewrite IH; reflexivity]. Qed.

Lemma str_append_nil_r (a : string) : a ++ "" = a.
Proof. induction a as [|x a IH]; simpl; [reflexivity | rewrite IH; reflexivity]. Qed.

Lemma concat_strings_app (xs ys : list string) :
  concat_strings (xs ++ ys) = concat_strings xs ++ concat_strings ys.
Proof.
  unfold concat_strings. induction xs as [|x xs IH]; simpl; [reflexivity|].
  rewrite IH, str_append_assoc. reflexivity.
Qed.

Lemma decoded_texts_cons (ct : string) (p : Part) (ps : list Part) :
  decoded_texts ct (p :: ps) = (decoded_texts ct [p] ++ decoded_texts ct ps)%list.
Proof. unfold decoded_texts. simpl. rewrite app_nil_r. reflexivity. Qed.

Lemma body_step_spec (acc : string) (p : Part) :
  body_step acc p = acc ++ concat_strings (decoded_texts "text/plain" [p]).
Proof.
  unfold body_step, decoded_texts, concat_strings.
  destruct p as [ct d r | ct ps]; simpl;
    destruct (String.eqb ct "text/plain"); [destruct d as [t|] | | |]; simpl;
    rewrite ?str_append_nil_r; reflexivity.
Qed.

Lemma gui_step_spec (b h : string) (p : Part) :
  gui_step (b, h) p =
  (b ++ concat_strings (decoded_texts "text/plain" [p]),
   h ++ concat_strings (decoded_texts "text/html" [p])).
Proof.
  unfold gui_step, decoded_texts, concat_strings.
  destruct p as [ct d r | ct ps]; simpl.
  - destruct (String.eqb_spec ct "text/plain") as [-> | Ep]; simpl.
    + destruct d as [t|]; simpl; rewrite ?str_append_nil_r; reflexivity.
    + destruct (String.eqb_spec ct "text/html") as [-> | Eh]; simpl.
      * destruct d as [t|]; simpl; rewrite ?str_append_nil_r; reflexivity.
      * rewrite !str_append_nil_r. reflexivity.
  - destruct (String.eqb ct "text/plain"), (String.eqb ct "text/html");
      simpl; rewrite !str_append_nil_r; reflexivity.
Qed.

Lemma fold_body_step (ps : list Part) (acc : string) :
  fold_left body_step ps acc = acc ++ concat_strings (decoded_texts "text/plain" ps).
Proof.
  revert acc. induction ps as [|p ps IH]; intros acc; cbn [fold_left].
  - unfold concat_strings. simpl. rewrite str_append_nil_r. reflexivity.
  - rewrite IH, body_step_spec, (decoded_texts_cons _ p ps), concat_strings_app.
    symmetry. apply str_append_assoc.
Qed.

Lemma fold_gui_step (ps : list Part) (b h : string) :
  fold_left gui_step ps (b, h) =
  (b ++ concat_strings (decoded_texts "text/plain" ps),
   h ++ concat_strings (decoded_texts "text/html" ps)).
Proof.
  revert b h. induction ps as [|p ps IH]; intros b h; cbn [fold_left].
  - unfold concat_strings. simpl. rewrite !str_append_nil_r. reflexivity.
  - rewrite gui_step_spec, IH, !(decoded_texts_cons _ p ps), !concat_strings_app.
    rewrite !str_append_assoc. reflexivity.
Qed.

(** ** Loader claims *)




(** C3 (code defect): on [two_message_mbox] the GUI loader emits the
    progress values 50, 100 and 150; 150 lies outside [0, 100]. *)
Theorem progress_exceeds_hundred (D : Type) (pd : string -> option D)
    (pm : string -> Message) :
  progress_values D (run D pd pm (one_file two_message_mbox) inbox_path) = [50; 100; 150]%Z.
Proof. vm_compute. reflexivity. Qed.



(** C9: on a path with no file, the GUI loader emits its initial status
    and then the [FileNotFoundError] from [os.path.getsize], with no
    progress and no records; the command-line loader prints that the file
    does not exist and exits with status 1, leaving [self.messages] as it
    was. *)
Theorem missing_path_fails_first (D : Type) (pd : string -> option D)
    (pm : string -> Message) (fs : FileSystem) (path : string)
    (messages : list (EmailMessage D)) (Hfs : fs path = None) :
  run D pd pm fs path = [Status Scanning; Error (FileNotFoundError path)]
  /\ load_mbox D pd pm fs path messages = CliExit (DoesNotExist path) 1%Z.
Proof.
  unfold run, load_mbox. rewrite Hfs. split; reflexivity.
Qed.

Lemma missing_path_fails_first_witness :
  no_files inbox_path = None /\
  run nat never_parses example_parser no_files inbox_path =
    [Status Scanning; Error (FileNotFoundError inbox_path)]
  /\ load_mbox nat never_parses example_parser no_files inbox_path [] =
     CliExit (DoesNotExist inbox_path) 1%Z.
Proof.
  split; [reflexivity|].
  apply (missing_path_fails_first nat never_parses example_parser no_files inbox_path []).
  reflexivity.
Defined.

(** ** Body claims *)

(** C7: for a multipart message the command-line loader's body (and the
    GUI loader's plain-text accumulator) is the concatenation, in walk
    order, of the decoded text of the text/plain parts; parts of any other
    content type and parts whose decoding raises contribute nothing. *)
Theorem plain_body_concatenates_text_plain (m : Message)
    (Hmulti : is_multipart m = true) :
  get_message_body m = concat_strings (decoded_texts "text/plain" (walk (root m)))
  /\ fst (gui_bodies m) = concat_strings (decoded_texts "text/plain" (walk (root m))).
Proof.
  unfold get_message_body, gui_bodies. rewrite Hmulti.
  rewrite fold_body_step, fold_gui_step. split; reflexivity.
Qed.

Lemma plain_body_concatenates_text_plain_witness :
  is_multipart attachment_message = true /\
  (get_message_body attachment_message =
     concat_strings (decoded_texts "text/plain" (walk (root attachment_message)))
   /\ fst (gui_bodies attachment_message) =
      concat_strings (decoded_texts "text/plain" (walk (root attachment_message)))).
Proof.
  split; [reflexivity|].
  apply plain_body_concatenates_text_plain. reflexivity.
Defined.

(** C5 (as amended): for a multipart message the GUI loader's body is the
    concatenation of the decoded text/html parts when that is non-empty,
    and the concatenation of the decoded text/plain parts otherwise. *)
Theorem gui_body_prefers_html (m : Message) (Hmulti : is_multipart m = true) :
  gui_body m =
  (let html := concat_strings (decoded_texts "text/html" (walk (root m))) in
   if String.eqb html "" then concat_strings (decoded_texts "text/plain" (walk (root m)))
   else html).
Proof.
  unfold gui_body, gui_bodies. rewrite Hmulti, fold_gui_step. reflexivity.
Qed.

Lemma gui_body_prefers_html_witness :
  is_multipart alternative_message = true /\
  gui_body alternative_message =
  (let html := concat_strings (decoded_texts "text/html" (walk (root alternative_message))) in
   if String.eqb html "" then
     concat_strings (decoded_texts "text/plain" (walk (root alternative_message)))
   else html).
Proof.
  split; [reflexivity|].
  apply gui_body_prefers_html. reflexivity.
Defined.

(** C5 counterexample: [alternative_message] has a usable plain-text part
    "Hello", yet the GUI loader's body is its HTML part. *)
Lemma gui_body_html_despite_plain :
  is_multipart alternative_message = true
  /\ concat_strings (decoded_texts "text/plain" (walk (root alternative_message))) = "Hello"
  /\ gui_body alternative_message = "<p>Hello</p>".
Proof. split; [|split]; reflexivity. Qed.

(** ** Witness and examples for search *)

Lemma search_empty_query_all_witness :
  (true || false = true) /\
  search [mkEmail (datetime := nat) "<1@x>" "Quarterly Report" "alice" None "numbers"] ""
         true false =
  [mkEmail (datetime := nat) "<1@x>" "Quarterly Report" "alice" None "numbers"].
Proof.
  split; [reflexivity|].
  apply search_empty_query_all. reflexivity.
Defined.

Example search_report_lower : search [quarterly] "report" true false = [quarterly].
Proof. reflexivity. Qed.

Example search_report_upper : search [quarterly] "REPORT" true false = [quarterly].
Proof. reflexivity. Qed.

Example search_repot : search [quarterly] "repot" true false = [].
Proof. reflexivity. Qed.

Example search_flags_respected :
  search [quarterly] "report" false true = [] /\
  gui_search [quarterly] "report" "Body" = [] /\
  gui_search [quarterly] "report" "Subject" = [quarterly].
Proof. repeat split; reflexivity. Qed.

(** * Further properties of the code *)

(** ** Chunked reading *)

Lemma substring_length (n m : nat) (s : string) :
  String.length (substring n m s) = Nat.min m (String.length s - n).
Proof.
  revert n m. induction s as [|c s IH]; intros n m.
  - destruct n, m; reflexivity.
  - destruct n as [|n], m as [|m]; simpl; try reflexivity.
    + rewrite IH. lia.
    + rewrite IH. reflexivity.
    + rewrite IH. reflexivity.
Qed.

Lemma read_chunks_fuel_total (fuel n : nat) (s : string) :
  (0 < n)%nat -> (String.length s <= fuel)%nat ->
  chunks_total (read_chunks_fuel fuel n s) = Z.of_nat (String.length s).
Proof.
  intros Hn. revert s. induction fuel as [|fuel IH]; intros s Hs.
  - destruct s; simpl in *; [reflexivity | lia].
  - destruct s as [|c s']; [reflexivity|].
    cbn [read_chunks_fuel chunks_total fold_right].
    fold (chunks_total (read_chunks_fuel fuel n
            (substring n (String.length (String c s') - n) (String c s')))).
    rewrite IH by (rewrite substring_length; cbn [String.length] in *; lia).
    rewrite !substring_length. cbn [String.length] in *. lia.
Qed.

Lemma chunk_size_pos : (0 < chunk_size)%nat.
Proof. apply Nat.ltb_lt. vm_compute. reflexivity. Qed.

Lemma read_chunks_total (s : string) :
  chunks_total (read_chunks chunk_size s) = Z.of_nat (String.length s).
Proof. apply read_chunks_fuel_total; [exact chunk_size_pos | lia]. Qed.

(** ** Shape of the GUI loader's trace *)

Lemma StronglySorted_app (l1 l2 : list Z) (m : Z) :
  StronglySorted Z.le l1 -> StronglySorted Z.le l2 ->
  Forall (fun v => v <= m)%Z l1 -> Forall (fun v => m <= v)%Z l2 ->
  StronglySorted Z.le (l1 ++ l2).
Proof.
  intros H1 H2 F1 F2. induction H1 as [|x l1 Hs IH Hx]; simpl; [exact H2|].
  apply Forall_cons_iff in F1. destruct F1 as [Hxm F1'].
  constructor; [apply IH; exact F1'|].
  apply Forall_app. split; [exact Hx|].
  eapply Forall_impl; [|exact F2]. intros v Hv. simpl in *. lia.
Qed.



Lemma chunks_total_nonneg (cs : list string) : (0 <= chunks_total cs)%Z.
Proof. induction cs as [|c cs IH]; simpl; [lia|]. fold (chunks_total cs). lia. Qed.


Lemma prescan_values (fs bp cnt : Z) (cs : list string) :
  (0 <= fs)%Z ->
  StronglySorted Z.le (fst (prescan fs bp cnt cs)) /\
  Forall (fun v => bp * 50 / fs <= v <= (bp + chunks_total cs) * 50 / fs)%Z
         (fst (prescan fs bp cnt cs)).
Proof.
  intros Hfs. revert bp cnt. induction cs as [|c cs IH]; intros bp cnt; simpl.
  - split; constructor.
  - specialize (IH (bp + Z.of_nat (String.length c))%Z
                   (cnt + Z.of_nat (count_sub separator c))%Z).
    destruct (prescan fs _ _ cs) as [emitted n] eqn:E. simpl in *.
    destruct IH as [Hs Hb].
    assert (Hmono : forall a b, (a <= b)%Z -> (a * 50 / fs <= b * 50 / fs)%Z).
    { intros a b Hab. destruct (Z.eq_dec fs 0) as [-> | Hne].
      - rewrite !Z.div_0_r. lia.
      - apply Z.div_le_mono; lia. }
    split.
    + constructor; [exact Hs|].
      eapply Forall_impl; [|exact Hb]. simpl. intros v [Hv _]. exact Hv.
    + constructor.
      * pose proof (chunks_total_nonneg cs).
        split; apply Hmono; [lia|]. fold (chunks_total cs). lia.
      * eapply Forall_impl; [|exact Hb]. simpl. intros v [Hv1 Hv2].
        split.
        -- eapply Z.le_trans; [apply Hmono | exact Hv1]. lia.
        -- replace (bp + Z.of_nat (String.length c) + chunks_total cs)%Z
             with (bp + (Z.of_nat (String.length c) + chunks_total cs))%Z in Hv2 by lia.
           exact Hv2.
Qed.

Lemma prescan_count_nonneg (fs bp cnt : Z) (cs : list string) :
  (0 <= cnt)%Z -> (0 <= snd (prescan fs bp cnt cs))%Z.
Proof.
  revert bp cnt. induction cs as [|c cs IH]; intros bp cnt Hc; simpl; [exact Hc|].
  specialize (IH (bp + Z.of_nat (String.length c))%Z
                 (cnt + Z.of_nat (count_sub separator c))%Z ltac:(lia)).
  destruct (prescan fs _ _ cs) as [emitted n]. exact IH.
Qed.

Section TraceProofs.
Variable D : Type.
Variable pd : string -> option D.
Variable pm : string -> Message.

Lemma load_loop_values (n : Z) (ms : list (option Message)) (k : Z)
    (acc : list (EmailMessage D)) :
  (0 < n)%Z ->
  StronglySorted Z.le (progress_values D (load_loop D pd n ms k acc)) /\
  Forall (fun v => 50 + (k + 1) * 50 / n <= v <= 50 + (k + Z.of_nat (length ms)) * 50 / n)%Z
         (progress_values D (load_loop D pd n ms k acc)).
Proof.
  intros Hn. revert k acc. induction ms as [|[m|] ms IH]; intros k acc; cbn [load_loop].
  - split; constructor.
  - destruct (Z.eqb_spec n 0) as [E | _]; [lia|].
    destruct (IH (k + 1)%Z (gui_record D pd m :: acc)) as [Hs Hb].
    cbn [progress_values flat_map app] in *.
    assert (Hmono : forall a b, (a <= b)%Z -> (a * 50 / n <= b * 50 / n)%Z).
    { intros a b Hab. apply Z.div_le_mono; lia. }
    split.
    + constructor; [exact Hs|].
      eapply Forall_impl; [|exact Hb]. cbv beta. intros v [Hv _].
      eapply Z.le_trans; [|exact Hv]. apply Z.add_le_mono_l, Hmono. lia.
    + constructor.
      * split; [apply Z.le_refl|]. apply Z.add_le_mono_l, Hmono. cbn [length]. lia.
      * eapply Forall_impl; [|exact Hb]. cbv beta. intros v [Hv1 Hv2].
        split.
        -- eapply Z.le_trans; [|exact Hv1]. apply Z.add_le_mono_l, Hmono. lia.
        -- eapply Z.le_trans; [exact Hv2|]. apply Z.add_le_mono_l, Hmono. cbn [length]. lia.
  - split; constructor.
Qed.


Lemma load_loop_shape (n : Z) (ms : list (option Message)) (k : Z)
    (acc : list (EmailMessage D)) :
  exists pre t, load_loop D pd n ms k acc = (pre ++ [t])%list /\
    Forall (fun s => is_terminal s = false) pre /\ is_terminal t = true.
Proof.
  revert k acc. induction ms as [|[m|] ms IH]; intros k acc; simpl.
  - exists [], (Finished (rev acc)). repeat split; constructor.
  - destruct (n =? 0)%Z.
    + exists [], (Error ZeroDivisionError). repeat split; constructor.
    + destruct (IH (k + 1)%Z (gui_record D pd m :: acc)) as [pre [t [E [F T]]]].
      rewrite E.
      exists (Progress (50 + (k + 1) * 50 / n)%Z
              :: Status (LoadingMessage (k + 1) n) :: pre), t.
      split; [reflexivity|]. split; [repeat constructor; exact F | exact T].
  - exists [], (Error UnicodeDecodeError). repeat split; constructor.
Qed.

Lemma run_progress_split (fs : FileSystem) (path contents : string) :
  fs path = Some contents ->
  exists emitted looped,
    progress_values D (run D pd pm fs path) = (emitted ++ looped)%list /\
    StronglySorted Z.le emitted /\ Forall (fun v => 0 <= v <= 50)%Z emitted /\
    StronglySorted Z.le looped /\
    Forall (fun v => 50 <= v <= 50 + Z.of_nat (length (mbox_entries contents)) * 50
                                   / prescan_count contents)%Z looped.
Proof.
  intros Hfs. rewrite (run_some D pd pm fs path contents Hfs).
  set (fsz := Z.of_nat (String.length contents)).
  set (cs := read_chunks chunk_size contents).
  set (n := prescan_count contents).
  exists (fst (prescan fsz 0 0 cs)),
         (progress_values D (load_loop D pd n (map (get_message pm) (mbox_entries contents)) 0 [])).
  split.
  { rewrite progress_values_status, progress_values_app, progress_values_map,
      progress_values_status. reflexivity. }
  destruct (prescan_values fsz 0 0 cs ltac:(unfold fsz; lia)) as [Hs Hb].
  assert (Htot : chunks_total cs = fsz) by apply read_chunks_total.
  split; [exact Hs|]. split.
  { eapply Forall_impl; [|exact Hb]. cbv beta. intros v [Hv1 Hv2].
    rewrite Htot, Z.add_0_l in Hv2.
    replace (0 * 50 / fsz)%Z with 0%Z in Hv1 by reflexivity.
    destruct (Z.eq_dec fsz 0) as [E | Hne].
    - rewrite E, Z.div_0_r in Hv2. lia.
    - rewrite (Z.mul_comm fsz 50), Z.div_mul in Hv2 by exact Hne. lia. }
  assert (Hn0 : (0 <= n)%Z) by (apply prescan_count_nonneg; lia).
  destruct (Z.eq_dec n 0) as [E | Hne].
  - assert (Hnil : progress_values D (load_loop D pd n (map (get_message pm) (mbox_entries contents)) 0 []) = []).
    { rewrite E. destruct (map (get_message pm) (mbox_entries contents)) as [|[m|] ms]; reflexivity. }
    rewrite Hnil. split; constructor.
  - destruct (load_loop_values n (map (get_message pm) (mbox_entries contents)) 0 [] ltac:(lia)) as [Ls Lb].
    split; [exact Ls|].
    eapply Forall_impl; [|exact Lb]. cbv beta. intros v [Hv1 Hv2].
    rewrite length_map, Z.add_0_l in Hv2. split; [|exact Hv2].
    pose proof (Z.div_pos ((0 + 1) * 50) n ltac:(lia) ltac:(lia)).
    set (q := ((0 + 1) * 50 / n)%Z) in *. lia.
Qed.

End TraceProofs.

(** ** Traces of [MBoxLoader.run] *)

Section RunTraces.
Variable D : Type.
Variable pd : string -> option D.
Variable pm : string -> Message.

Lemma run_shape (fs : FileSystem) (path : string) :
  exists pre t, run D pd pm fs path = (pre ++ [t])%list /\
    Forall (fun s => is_terminal s = false) pre /\ is_terminal t = true.
Proof.
  destruct (fs path) as [contents|] eqn:Hfs.
  - rewrite (run_some D pd pm fs path contents Hfs).
    set (A := map Progress (fst (prescan (Z.of_nat (String.length contents)) 0 0
                                   (read_chunks chunk_size contents)))).
    destruct (load_loop_shape D pd (prescan_count contents)
                (map (get_message pm) (mbox_entries contents)) 0 [])
      as [pre [t [E [F T]]]].
    rewrite E.
    exists (Status Scanning :: A ++ Status (FoundMessages (prescan_count contents)) :: pre)%list, t.
    split; [rewrite <- app_comm_cons, <- app_assoc; reflexivity|].
    split; [|exact T].
    constructor; [reflexivity|]. apply Forall_app. split.
    + apply Forall_forall. intros s Hs. unfold A in Hs.
      apply in_map_iff in Hs. destruct Hs as [v [<- _]]. reflexivity.
    + constructor; [reflexivity | exact F].
  - exists [Status Scanning], (Error (FileNotFoundError path)).
    unfold run. rewrite Hfs. split; [reflexivity|]. split; [repeat constructor | reflexivity].
Qed.

Lemma in_shape_terminal (pre : list (Signal D)) (t s : Signal D) :
  Forall (fun s => is_terminal s = false) pre -> is_terminal s = true ->
  In s (pre ++ [t])%list -> s = t.
Proof.
  intros F T H. apply in_app_or in H. destruct H as [H | [H | []]]; [|congruence].
  rewrite Forall_forall in F. rewrite (F s H) in T. discriminate.
Qed.

(** X1: every load emits exactly one [finished] or [error] signal, and
    it is the last signal emitted. *)
Theorem run_one_terminal_last (fs : FileSystem) (path : string) :
  exists pre t, run D pd pm fs path = (pre ++ [t])%list /\
    filter is_terminal (run D pd pm fs path) = [t].
Proof.
  destruct (run_shape fs path) as [pre [t [E [F T]]]].
  exists pre, t. split; [exact E|]. rewrite E, filter_app.
  replace (filter is_terminal pre) with (@nil (Signal D)).
  - simpl. rewrite T. reflexivity.
  - clear E. induction F as [|s pre Hs F IH]; simpl; [reflexivity|]. rewrite Hs. exact IH.
Qed.

(** X2: the progress values of a load never decrease and are never
    negative, whether the load finishes or fails. *)
Theorem run_progress_monotone (fs : FileSystem) (path : string) :
  StronglySorted Z.le (progress_values D (run D pd pm fs path)) /\
  Forall (fun v => 0 <= v)%Z (progress_values D (run D pd pm fs path)).
Proof.
  destruct (fs path) as [contents|] eqn:Hfs.
  - destruct (run_progress_split D pd pm fs path contents Hfs)
      as [em [lo [E [Se [Fe [Sl Fl]]]]]].
    rewrite E. split.
    + apply (StronglySorted_app em lo 50); [exact Se | exact Sl | |].
      * eapply Forall_impl; [|exact Fe]. cbv beta. intros v Hv. lia.
      * eapply Forall_impl; [|exact Fl]. cbv beta. intros v Hv. lia.
    + apply Forall_app. split.
      * eapply Forall_impl; [|exact Fe]. cbv beta. intros v Hv. lia.
      * eapply Forall_impl; [|exact Fl]. cbv beta. intros v Hv. lia.
  - unfold run. rewrite Hfs. split; constructor.
Qed.

(** X3: when the pre-scan counts at least as many messages as the file
    has entries, every progress value lies in 0..100. *)
Theorem run_progress_in_range (fs : FileSystem) (path contents : string)
    (Hfs : fs path = Some contents)
    (Hcount : (Z.of_nat (length (mbox_entries contents)) <= prescan_count contents)%Z) :
  Forall (fun v => 0 <= v <= 100)%Z (progress_values D (run D pd pm fs path)).
Proof.
  destruct (run_progress_split D pd pm fs path contents Hfs)
    as [em [lo [E [Se [Fe [Sl Fl]]]]]].
  rewrite E. apply Forall_app. split.
  - eapply Forall_impl; [|exact Fe]. cbv beta. intros v Hv. lia.
  - set (L := Z.of_nat (length (mbox_entries contents))) in *.
    set (n := prescan_count contents) in *.
    assert (Hq : (L * 50 / n <= 50)%Z).
    { assert (Hn0 : (0 <= n)%Z) by (apply prescan_count_nonneg; lia).
      destruct (Z.eq_dec n 0) as [En | Hne].
      - rewrite En, Z.div_0_r. lia.
      - apply Z.div_le_upper_bound; lia. }
    eapply Forall_impl; [|exact Fl]. cbv beta. intros v Hv.
    set (q := (L * 50 / n)%Z) in *. lia.
Qed.


End RunTraces.

(** ** The main window *)

Section WindowProofs.
Variable D : Type.
Variable pd : string -> option D.
Variable pm : string -> Message.
Variable strftime : D -> string.

(** [progress] and [status] signals leave the loaded messages, the rows,
    the search inputs, the error dialog and the bar's visibility alone. *)
Lemma fold_nonterminal (l : list (Signal D)) (w : Window D) :
  Forall (fun s => is_terminal s = false) l ->
  let w' := fold_left (handle_signal D strftime) l w in
  w_messages D w' = w_messages D w /\ w_rows D w' = w_rows D w /\
  w_search_text D w' = w_search_text D w /\ w_search_type D w' = w_search_type D w /\
  w_error_dialog D w' = w_error_dialog D w /\
  w_progress_visible D w' = w_progress_visible D w.
Proof.
  intros F. revert w. induction F as [|s l Hs F IH]; intros w; cbn [fold_left].
  - repeat split.
  - destruct (IH (handle_signal D strftime w s)) as (H1 & H2 & H3 & H4 & H5 & H6).
    cbv zeta in *. rewrite H1, H2, H3, H4, H5, H6.
    destruct s as [v | m | ms | e]; try discriminate; simpl.
    + unfold update_progress. destruct (_ && _); repeat split.
    + repeat split.
Qed.

Lemma open_mbox_last (fs : FileSystem) (path : string) (w : Window D) (t : Signal D) :
  is_terminal t = true -> In t (run D pd pm fs path) ->
  exists w0, open_mbox D pd pm strftime fs path w = handle_signal D strftime w0 t /\
    w_messages D w0 = w_messages D w /\ w_rows D w0 = w_rows D w /\
    w_search_text D w0 = w_search_text D w /\ w_search_type D w0 = w_search_type D w /\
    w_error_dialog D w0 = w_error_dialog D w.
Proof.
  intros Ht Hin. destruct (run_shape D pd pm fs path) as [pre [t' [E [F T]]]].
  rewrite E in Hin. pose proof (in_shape_terminal D pre t' t F Ht Hin) as ->.
  exists (fold_left (handle_signal D strftime) pre (start_load D w)).
  unfold open_mbox. rewrite E, fold_left_app. split; [reflexivity|].
  destruct (fold_nonterminal pre (start_load D w) F) as (H1 & H2 & H3 & H4 & H5 & _).
  cbv zeta in *. rewrite H1, H2, H3, H4, H5. repeat split.
Qed.

(** X5: a load that fails leaves the loaded messages and the result rows
    as they were, hides the progress bar and shows the error. *)
Theorem open_mbox_error (fs : FileSystem) (path : string) (w : Window D) (e : LoaderError)
    (Herr : In (Error e) (run D pd pm fs path)) :
  let w' := open_mbox D pd pm strftime fs path w in
  w_messages D w' = w_messages D w /\ w_rows D w' = w_rows D w /\
  w_progress_visible D w' = false /\ w_error_dialog D w' = Some e.
Proof.
  destruct (open_mbox_last fs path w (Error e) eq_refl Herr)
    as [w0 [E (H1 & H2 & _)]].
  cbv zeta. rewrite E. simpl. rewrite H1, H2. repeat split.
Qed.

(** X6: a load that emits [finished] does so only for a file whose
    [From ] lines are all ASCII, with the records of its parsed entries in
    file order; the window then holds these records, shows the rows of the
    current search over them and hides the progress bar; the error dialog
    is left as it was. *)
Theorem open_mbox_success (fs : FileSystem) (path : string) (w : Window D)
    (recs : list (EmailMessage D))
    (Hfin : In (Finished recs) (run D pd pm fs path)) :
  (exists contents, fs path = Some contents /\ all_from_lines_ascii contents = true /\
     recs = map (gui_record D pd) (parsed_entries pm contents)) /\
  let results := gui_search recs (w_search_text D w) (w_search_type D w) in
  let w' := open_mbox D pd pm strftime fs path w in
  w_messages D w' = recs /\ w_rows D w' = map (row_of D strftime) results /\
  w_status D w' = FoundResults (length results) /\
  w_progress_visible D w' = false /\ w_error_dialog D w' = w_error_dialog D w.
Proof.
  split; [exact (run_finished D pd pm fs path recs Hfin)|].
  destruct (open_mbox_last fs path w (Finished recs) eq_refl Hfin)
    as [w0 [E (_ & _ & H3 & H4 & H5)]].
  cbv zeta. rewrite E. simpl. rewrite H3, H4, H5. repeat split.
Qed.

Lemma handle_signal_progress_range (w : Window D) (s : Signal D) :
  (0 <= w_progress_value D w <= 100)%Z ->
  (0 <= w_progress_value D (handle_signal D strftime w s) <= 100)%Z.
Proof.
  intros Hw. destruct s as [v | m | ms | e]; simpl; try exact Hw.
  unfold update_progress. destruct (Z.leb_spec 0 v), (Z.leb_spec v 100); simpl; try exact Hw.
  lia.
Qed.

(** X7: whatever the loader emits, the progress bar's value stays within
    0..100 after opening a file. *)
Theorem open_mbox_progress_in_range (fs : FileSystem) (path : string) (w : Window D) :
  (0 <= w_progress_value D (open_mbox D pd pm strftime fs path w) <= 100)%Z.
Proof.
  unfold open_mbox.
  assert (H0 : (0 <= w_progress_value D (start_load D w) <= 100)%Z) by (simpl; lia).
  revert H0. generalize (start_load D w) as w0.
  induction (run D pd pm fs path) as [|s l IH]; intros w0 H; cbn [fold_left]; [exact H|].
  apply IH, handle_signal_progress_range, H.
Qed.

End WindowProofs.

(** ** [<[^>]+>] *)

Lemma has_char_spec (c : ascii) (s : string) :
  has_char c s = true <->
  exists t suf, s = (t ++ String c suf)%string /\ has_char c t = false.
Proof.
  split.
  - induction s as [|d s IH]; simpl; [discriminate|].
    destruct (Ascii.eqb_spec c d) as [<- | Hne]; simpl.
    + intros _. exists EmptyString, s. split; reflexivity.
    + intros H. destruct (IH H) as [t [suf [E Ht]]].
      exists (String d t), suf. split; [rewrite E; reflexivity|].
      simpl. rewrite Ht. destruct (Ascii.eqb_spec c d); [contradiction | reflexivity].
  - intros [t [suf [-> _]]]. induction t as [|d t IH]; simpl.
    + destruct (Ascii.eqb_spec c c); [reflexivity | contradiction].
    + rewrite IH. apply orb_true_r.
Qed.

Lemma tag_at_spec (s : string) :
  tag_at s = true <->
  exists t suf, s = String "<"%char (t ++ String ">"%char suf) /\
    t <> EmptyString /\ has_char ">"%char t = false.
Proof.
  split.
  - destruct s as [|c [|d rest]]; simpl; try discriminate.
    destruct (Ascii.eqb_spec c "<"%char) as [-> | _]; simpl; [|discriminate].
    destruct (Ascii.eqb_spec d ">"%char) as [_ | Hd]; simpl; [discriminate|].
    intros H. apply has_char_spec in H. destruct H as [t [suf [E Ht]]].
    exists (String d t), suf. split; [rewrite E; reflexivity|]. split; [discriminate|].
    cbn [has_char]. rewrite Ht. destruct (Ascii.eqb_spec ">"%char d); [congruence | reflexivity].
  - intros [t [suf [-> [Hne Ht]]]]. destruct t as [|d t]; [contradiction|].
    simpl in Ht. apply orb_false_iff in Ht. destruct Ht as [Hd Ht].
    simpl. destruct (Ascii.eqb_spec d ">"%char) as [-> | _].
    + vm_compute in Hd. discriminate Hd.
    + simpl. apply has_char_spec. exists t, suf. split; [reflexivity | exact Ht].
Qed.

Lemma is_html_spec (s : string) :
  is_html s = true <-> exists pre rest, s = (pre ++ rest)%string /\ tag_at rest = true.
Proof.
  split.
  - induction s as [|a s IH]; intros H; [discriminate|].
    cbn [is_html] in H. apply orb_true_iff in H. destruct H as [H | H].
    + exists EmptyString, (String a s). split; [reflexivity | exact H].
    + destruct (IH H) as [pre [rest [-> Hr]]].
      exists (String a pre), rest. split; [reflexivity | exact Hr].
  - intros [pre [rest [-> Hr]]]. induction pre as [|a pre IH].
    + destruct rest as [|b rest]; [discriminate|].
      cbn [is_html append]. rewrite Hr. reflexivity.
    + cbn [is_html append]. rewrite IH. apply orb_true_r.
Qed.

(** X8: [show_selected_message] treats a body as HTML exactly when it
    contains a ['<'], then one or more characters other than ['>'], then
    a ['>']. *)
Theorem is_html_finds_tag (s : string) :
  is_html s = true <->
  exists pre t suf, s = (pre ++ String "<"%char (t ++ String ">"%char suf))%string /\
    t <> EmptyString /\ has_char ">"%char t = false.
Proof.
  rewrite is_html_spec. split.
  - intros [pre [rest [-> Hr]]]. apply tag_at_spec in Hr.
    destruct Hr as [t [suf [-> Ht]]]. exists pre, t, suf. split; [reflexivity | exact Ht].
  - intros [pre [t [suf [-> Ht]]]]. exists pre, (String "<"%char (t ++ String ">"%char suf)).
    split; [reflexivity|]. apply tag_at_spec. exists t, suf. split; [reflexivity | exact Ht].
Qed.

(** ** The two loaders' records *)

Lemma gui_body_no_html (m : Message) :
  is_multipart m = false \/
  concat_strings (decoded_texts "text/html" (walk (root m))) = EmptyString ->
  gui_body m = get_message_body m.
Proof.
  intros Hno. unfold gui_body, get_message_body, gui_bodies.
  destruct (is_multipart m) eqn:Hm.
  - destruct Hno as [H | H]; [discriminate|].
    rewrite fold_gui_step, fold_body_step, H. reflexivity.
  - destruct (decode_payload (root m)) as [text|]; [|reflexivity].
    destruct (String.eqb (get_content_type (root m)) "text/html"); [|reflexivity].
    destruct (String.eqb_spec text ""); [subst; reflexivity | reflexivity].
Qed.

(** X9: the GUI loader and the command-line loader build the same record
    from a message that is not multipart, or whose parts decode to no
    HTML text. *)
Theorem gui_record_agrees_cli (D : Type) (pd : string -> option D) (m : Message)
    (Hno_html : is_multipart m = false \/
                concat_strings (decoded_texts "text/html" (walk (root m))) = EmptyString) :
  gui_record D pd m = cli_record D pd m.
Proof.
  unfold gui_record, cli_record. rewrite (gui_body_no_html m Hno_html). reflexivity.
Qed.

(** ** The two front ends on the same file *)

(** X10: when no parsed entry of a file has HTML text, a GUI load of it
    that emits [finished] leaves in the window exactly the records the
    command-line tool loads from the same file. *)
Theorem gui_window_matches_cli_load (D : Type) (pd : string -> option D)
    (pm : string -> Message) (strftime : D -> string)
    (fs : FileSystem) (path contents : string) (w : Window D) (recs : list (EmailMessage D))
    (Hfs : fs path = Some contents)
    (Hfin : In (Finished recs) (run D pd pm fs path))
    (Hplain : Forall (fun m => is_multipart m = false \/
                               concat_strings (decoded_texts "text/html" (walk (root m)))
                               = EmptyString) (parsed_entries pm contents)) :
  load_mbox D pd pm fs path [] = CliLoaded (w_messages D (open_mbox D pd pm strftime fs path w)).
Proof.
  destruct (run_finished D pd pm fs path recs Hfin) as [contents' [Hfs' [Ha Hrecs]]].
  rewrite Hfs in Hfs'. injection Hfs' as <-.
  destruct (open_mbox_last D pd pm strftime fs path w (Finished recs) eq_refl Hfin) as [w0 [E _]].
  rewrite E, (load_mbox_some D pd pm fs path contents [] Hfs), Ha. simpl. f_equal.
  rewrite Hrecs. apply map_ext_in. intros m Hm.
  rewrite Forall_forall in Hplain. unfold gui_record, cli_record.
  rewrite (gui_body_no_html m (Hplain m Hm)). reflexivity.
Qed.

(** ** Instances of the properties above *)

Lemma run_progress_in_range_witness :
  one_file preamble_mbox inbox_path = Some preamble_mbox /\
  (Z.of_nat (length (mbox_entries preamble_mbox)) <= prescan_count preamble_mbox)%Z /\
  Forall (fun v => 0 <= v <= 100)%Z
    (progress_values nat (run nat never_parses example_parser (one_file preamble_mbox) inbox_path)).
Proof.
  split; [reflexivity|]. split; [apply Z.leb_le; vm_compute; reflexivity|].
  apply (run_progress_in_range nat never_parses example_parser (one_file preamble_mbox)
           inbox_path preamble_mbox).
  - reflexivity.
  - apply Z.leb_le. vm_compute. reflexivity.
Defined.


Lemma open_mbox_error_witness :
  In (Error (FileNotFoundError inbox_path))
     (run nat never_parses example_parser no_files inbox_path) /\
  let w' := open_mbox nat never_parses example_parser fixed_strftime no_files inbox_path
              initial_window in
  w_messages nat w' = w_messages nat initial_window /\ w_rows nat w' = w_rows nat initial_window /\
  w_progress_visible nat w' = false /\ w_error_dialog nat w' = Some (FileNotFoundError inbox_path).
Proof.
  split; [simpl; right; left; reflexivity|].
  apply (open_mbox_error nat never_parses example_parser fixed_strftime no_files inbox_path
           initial_window (FileNotFoundError inbox_path)).
  simpl. right. left. reflexivity.
Defined.

Lemma open_mbox_success_witness :
  let recs := map (gui_record nat never_parses) (parsed_entries example_parser two_message_mbox) in
  In (Finished recs) (run nat never_parses example_parser (one_file two_message_mbox) inbox_path) /\
  (exists contents, one_file two_message_mbox inbox_path = Some contents /\
     all_from_lines_ascii contents = true /\
     recs = map (gui_record nat never_parses) (parsed_entries example_parser contents)) /\
  let results := gui_search recs (w_search_text nat initial_window) (w_search_type nat initial_window) in
  let w' := open_mbox nat never_parses example_parser fixed_strftime
              (one_file two_message_mbox) inbox_path initial_window in
  w_messages nat w' = recs /\ w_rows nat w' = map (row_of nat fixed_strftime) results /\
  w_status nat w' = FoundResults (length results) /\
  w_progress_visible nat w' = false /\ w_error_dialog nat w' = w_error_dialog nat initial_window.
Proof.
  cbv zeta.
  assert (Hfin : In (Finished (map (gui_record nat never_parses)
                                  (parsed_entries example_parser two_message_mbox)))
                    (run nat never_parses example_parser (one_file two_message_mbox) inbox_path)).
  { apply (run_reaches_finished nat never_parses example_parser (one_file two_message_mbox)
             inbox_path two_message_mbox).
    - reflexivity.
    - vm_compute. reflexivity.
    - vm_compute. discriminate. }
  split; [exact Hfin|].
  exact (open_mbox_success nat never_parses example_parser fixed_strftime
           (one_file two_message_mbox) inbox_path initial_window _ Hfin).
Defined.

Lemma gui_record_agrees_cli_witness :
  (is_multipart attachment_message = false \/
   concat_strings (decoded_texts "text/html" (walk (root attachment_message))) = EmptyString) /\
  gui_record nat never_parses attachment_message = cli_record nat never_parses attachment_message.
Proof.
  split; [right; vm_compute; reflexivity|].
  apply (gui_record_agrees_cli nat never_parses attachment_message).
  right. vm_compute. reflexivity.
Defined.

Lemma gui_window_matches_cli_load_witness :
  let recs := map (gui_record nat never_parses) (parsed_entries example_parser two_message_mbox) in
  one_file two_message_mbox inbox_path = Some two_message_mbox /\
  In (Finished recs) (run nat never_parses example_parser (one_file two_message_mbox) inbox_path) /\
  Forall (fun m => is_multipart m = false \/
                   concat_strings (decoded_texts "text/html" (walk (root m))) = EmptyString)
         (parsed_entries example_parser two_message_mbox) /\
  load_mbox nat never_parses example_parser (one_file two_message_mbox) inbox_path []
  = CliLoaded (w_messages nat (open_mbox nat never_parses example_parser fixed_strftime
                                 (one_file two_message_mbox) inbox_path initial_window)).
Proof.
  cbv zeta.
  assert (Hfin : In (Finished (map (gui_record nat never_parses)
                                  (parsed_entries example_parser two_message_mbox)))
                    (run nat never_parses example_parser (one_file two_message_mbox) inbox_path)).
  { apply (run_reaches_finished nat never_parses example_parser (one_file two_message_mbox)
             inbox_path two_message_mbox).
    - reflexivity.
    - vm_compute. reflexivity.
    - vm_compute. discriminate. }
  assert (Hplain : Forall (fun m => is_multipart m = false \/
                     concat_strings (decoded_texts "text/html" (walk (root m))) = EmptyString)
                   (parsed_entries example_parser two_message_mbox)).
  { apply Forall_forall. intros m Hm. unfold parsed_entries in Hm.
    apply in_map_iff in Hm. destruct Hm as [e [<- _]]. left. reflexivity. }
  split; [reflexivity|]. split; [exact Hfin|]. split; [exact Hplain|].
  exact (gui_window_matches_cli_load nat never_parses example_parser fixed_strftime
           (one_file two_message_mbox) inbox_path two_message_mbox initial_window _
           eq_refl Hfin Hplain).
Defined.
